(** * The wallet connection reducer of the dev-frontend

    A shallow embedding of
    - [connectors/connectors.ts]: the two injected provider handles, and
    - [components/WalletConnector.tsx]: [connectionReducer], the reducer
      handed to React's [useReducer], the wallet detection, and the
      [WalletConnector] component with its effects and event handlers.

    JavaScript objects live in a store and are denoted by references, so
    that "the same connector" means the same object.  [console] output is
    part of the world the reducer runs in. *)

From Stdlib Require Import List String Ascii Bool ZArith Arith Lia.
Import ListNotations.

Local Open Scope string_scope.
Local Open Scope list_scope.

(** ** A small state monad *)

Definition St (S A : Type) : Type := S -> A * S.

Definition ret {S A : Type} (a : A) : St S A := fun s => (a, s).

Definition bind {S A B : Type} (m : St S A) (k : A -> St S B) : St S B :=
  fun s => let (a, s') := m s in k a s'.

Declare Scope st_scope.
Delimit Scope st_scope with st.
Notation "x <- m ;; k" := (bind m (fun x => k))
  (at level 61, m at next level, right associativity) : st_scope.
Notation "m ;; k" := (bind m (fun _ => k))
  (at level 61, right associativity) : st_scope.

(** ** The fragment of JavaScript strings and regular expressions used

    A string is a sequence of characters; the two patterns of the reducer
    are literal ASCII texts with the [i] flag.  For a pattern without the
    [u] flag, [Canonicalize] upper-cases a character, and never maps a
    character outside ASCII onto an ASCII one, so only the letters [a-z]
    are folded. *)

Module JS.

Definition toUpperCase (c : ascii) : ascii :=
  let n := nat_of_ascii c in
  if ((97 <=? n) && (n <=? 122))%nat then ascii_of_nat (n - 32) else c.

Record RegExp : Type := mkRegExp {
  source : string;      (* a literal text: no metacharacter *)
  ignoreCase : bool     (* the [i] flag *)
}.

Definition Canonicalize (re : RegExp) (c : ascii) : ascii :=
  if ignoreCase re then toUpperCase c else c.

(** The literal [pat] matched at the start of [s]: the text matched. *)
Fixpoint matchAt (re : RegExp) (pat s : string) : option string :=
  match pat with
  | EmptyString => Some EmptyString
  | String p pat' =>
      match s with
      | EmptyString => None
      | String c s' =>
          if Ascii.eqb (Canonicalize re p) (Canonicalize re c)
          then option_map (String c) (matchAt re pat' s')
          else None
      end
  end.

(** The leftmost match at or after the current position [index]. *)
Fixpoint execFrom (re : RegExp) (s : string) (index : nat)
  : option (nat * string) :=
  match matchAt re (source re) s with
  | Some m => Some (index, m)
  | None =>
      match s with
      | EmptyString => None
      | String _ s' => execFrom re s' (S index)
      end
  end.

(** [s.match(re)] for a pattern without the [g] flag: the index and the
    text of the first match, or [null]. *)
Definition String_match (s : string) (re : RegExp) : option (nat * string) :=
  execFrom re s 0.

(** Truthiness of the result of [match]: an array is truthy, [null] is
    not. *)
Definition truthy {A : Type} (o : option A) : bool :=
  match o with Some _ => true | None => false end.

Record Error : Type := mkError { message : string }.

(** Upper-casing a whole text, to say what a case-insensitive match is. *)
Fixpoint upper (s : string) : string :=
  match s with
  | EmptyString => EmptyString
  | String c s' => String (toUpperCase c) (upper s')
  end.

(** [msg] has an occurrence of [pat], letter case disregarded. *)
Definition occurs_ci (pat msg : string) : Prop :=
  exists pre mid post : string,
    msg = (pre ++ mid ++ post)%string /\ upper mid = upper pat.

End JS.

(** ** connectors.ts *)

Module Connectors.

(** The object [new InjectedConnector({ supportedChainIds })] holds. *)
Record InjectedConnector : Type := mkInjectedConnector {
  supportedChainIds : list Z
}.

(** Objects in allocation order; a reference is a position in the store. *)
Definition Ref : Type := nat.
Definition Heap : Type := list InjectedConnector.

Definition deref (h : Heap) (r : Ref) : option InjectedConnector :=
  nth_error h r.

Definition new_InjectedConnector (ids : list Z) : St Heap Ref :=
  fun h => (List.length h, h ++ [mkInjectedConnector ids]).

Local Open Scope Z_scope.

Definition createInjectedMetaMaskProvider : St Heap Ref :=
  (* mainnet, ropsten, rinkeby, goerli, kovan *)
  new_InjectedConnector [1; 3; 4; 5; 42].

Definition createInjectedTallyProvider : St Heap Ref :=
  (* currently tally supports only mainnet *)
  new_InjectedConnector [1].

Local Close Scope Z_scope.

(** The two [export const] of the module, in source order. *)
Definition module_init : St Heap (Ref * Ref) :=
  (metaMask <- createInjectedMetaMaskProvider ;;
   tally <- createInjectedTallyProvider ;;
   ret (metaMask, tally))%st.

Definition loaded : (Ref * Ref) * Heap := module_init [].

Definition injectedMetaMaskProvider : Ref := fst (fst loaded).
Definition injectedTallyProvider : Ref := snd (fst loaded).
Definition initial_heap : Heap := snd loaded.

End Connectors.

(** ** WalletConnector.tsx *)

Import Connectors.

(** Any connector object; the reducer only passes the reference on. *)
Definition AbstractConnector : Type := Ref.

Inductive ConnectedType : Type :=
  | activating
  | active
  | rejectedByUser
  | alreadyPending
  | failed.

Inductive ConnectionState : Type :=
  | Inactive
  | WithConnector (type : ConnectedType) (connector : AbstractConnector).

Inductive PlainActionType : Type :=
  | finishActivating
  | retry
  | cancel
  | deactivate.

Inductive ConnectionAction : Type :=
  | startActivating (connector : AbstractConnector)
  | fail (error : JS.Error)
  | plain (type : PlainActionType).

(** The [type] property of a state, as the string the source writes. *)
Definition state_type (s : ConnectionState) : string :=
  match s with
  | Inactive => "inactive"
  | WithConnector activating _ => "activating"
  | WithConnector active _ => "active"
  | WithConnector rejectedByUser _ => "rejectedByUser"
  | WithConnector alreadyPending _ => "alreadyPending"
  | WithConnector failed _ => "failed"
  end.

(** The [connector] property of a state: absent on the inactive state. *)
Definition state_connector (s : ConnectionState) : option AbstractConnector :=
  match s with
  | Inactive => None
  | WithConnector _ c => Some c
  end.

(** What [console.warn] and [console.log] are called with. *)
Inductive Logged : Type :=
  | LText (text : string)
  | LAction (action : ConnectionAction)
  | LState (state : ConnectionState).

Inductive ConsoleEntry : Type :=
  | Warn (v : Logged)
  | Log (v : Logged).

Record World : Type := mkWorld {
  heap : Heap;
  console : list ConsoleEntry
}.

Definition console_warn (v : Logged) : St World unit :=
  fun w => (tt, mkWorld (heap w) (console w ++ [Warn v])).

Definition console_log (v : Logged) : St World unit :=
  fun w => (tt, mkWorld (heap w) (console w ++ [Log v])).

Definition userRejected : JS.RegExp := JS.mkRegExp "user rejected" true.
Definition alreadyPendingRe : JS.RegExp := JS.mkRegExp "already pending" true.

(** The tail of [connectionReducer], reached by the two [break]s. *)
Definition ignoring (state : ConnectionState) (action : ConnectionAction)
  : St World ConnectionState :=
  (console_warn (LText "Ignoring connectionReducer action:") ;;
   console_log (LAction action) ;;
   console_log (LText "  in state:") ;;
   console_log (LState state) ;;
   ret state)%st.

Definition connectionReducer (state : ConnectionState) (action : ConnectionAction)
  : St World ConnectionState :=
  match action with
  | startActivating connector =>
      ret (WithConnector activating connector)
  | plain finishActivating =>
      ret (WithConnector active
             match state with
             | Inactive => injectedMetaMaskProvider
             | WithConnector _ connector => connector
             end)
  | fail error =>
      match state with
      | WithConnector _ connector =>
          ret (WithConnector
                 (if JS.truthy (JS.String_match (JS.message error) userRejected)
                  then rejectedByUser
                  else if JS.truthy (JS.String_match (JS.message error) alreadyPendingRe)
                  then alreadyPending
                  else failed)
                 connector)
      | Inactive => ignoring state action
      end
  | plain retry =>
      match state with
      | WithConnector _ connector => ret (WithConnector activating connector)
      | Inactive => ignoring state action
      end
  | plain cancel => ret Inactive
  | plain deactivate => ret Inactive
  end.

(** The next state and the world after one call of the reducer. *)
Definition reduce (s : ConnectionState) (a : ConnectionAction) (w : World)
  : ConnectionState :=
  fst (connectionReducer s a w).

Definition after (s : ConnectionState) (a : ConnectionAction) (w : World)
  : World :=
  snd (connectionReducer s a w).

(** The world once connectors.ts is loaded and nothing was logged. *)
Definition initial_world : World := mkWorld initial_heap [].

(** The four lines the reducer prints for an action it ignores. *)
Definition diagnostic (s : ConnectionState) (a : ConnectionAction)
  : list ConsoleEntry :=
  [ Warn (LText "Ignoring connectionReducer action:");
    Log (LAction a);
    Log (LText "  in state:");
    Log (LState s) ].

(** Dispatching a list of actions in order, as [useReducer] does. *)
Fixpoint dispatch_all (actions : list ConnectionAction)
    (s : ConnectionState) (w : World) : ConnectionState * World :=
  match actions with
  | [] => (s, w)
  | a :: rest =>
      let (s', w') := connectionReducer s a w in dispatch_all rest s' w'
  end.

(** The rows of the transition table of the specification that name no
    next state: the action is ignored and reported. *)
Definition unmatched (s : ConnectionState) (a : ConnectionAction) : bool :=
  match s, a with
  | Inactive, fail _ => true
  | Inactive, plain retry => true
  | _, _ => false
  end.

(** The six values of the [type] property the state type allows. *)
Definition state_types : list string :=
  [ "inactive"; "activating"; "active";
    "rejectedByUser"; "alreadyPending"; "failed" ].

(** ** WalletConnector.tsx: wallet detection *)

(** [window.ethereum] as [WhichWalletIsConnected] declares it: the object
    and each of its two flags may be missing. *)
Record Ethereum : Type := mkEthereum {
  isMetaMask : option bool;
  isTally : option bool
}.

Record Window : Type := mkWindow { ethereum : option Ethereum }.

(** [o?.p]: undefined when [o] is. *)
Definition optChain {A B : Type} (o : option A) (p : A -> option B) : option B :=
  match o with
  | Some x => p x
  | None => None
  end.

(** [v ?? d]: [d] when [v] is undefined. *)
Definition nullish {A : Type} (v : option A) (d : A) : A :=
  match v with
  | Some x => x
  | None => d
  end.

Definition detectMetaMask (window : Window) : bool :=
  nullish (optChain (ethereum window) isMetaMask) false.

Definition detectTally (window : Window) : bool :=
  nullish (optChain (ethereum window) isTally) false.

(** ** WalletConnector.tsx: the component

    An event handler or an effect body is the list of calls it makes, in
    order: [dispatch] of the reducer, and [activate] and [deactivate] of
    [useWeb3React].  The latter two belong to the wallet library; the calls
    made to them are recorded, their outcome comes back later as a change of
    [active] or [error]. *)

Inductive Cmd : Type :=
  | Dispatch (action : ConnectionAction)
  | CallActivate (connector : AbstractConnector)
  | CallDeactivate.

Definition Handler : Type := list Cmd.

Inductive Web3Call : Type :=
  | activateCall (connector : AbstractConnector)
  | deactivateCall.

Record Widget : Type := mkWidget {
  triedAuthorizedConnection : bool;   (* what [useAuthorizedConnection] returned *)
  connectionState : ConnectionState;  (* the state held by [useReducer] *)
  world : World;
  calls : list Web3Call               (* calls to the wallet library, oldest first *)
}.

Definition exec (c : Cmd) (wd : Widget) : Widget :=
  match c with
  | Dispatch a =>
      let (s', w') := connectionReducer (connectionState wd) a (world wd) in
      mkWidget (triedAuthorizedConnection wd) s' w' (calls wd)
  | CallActivate connector =>
      mkWidget (triedAuthorizedConnection wd) (connectionState wd) (world wd)
               (calls wd ++ [activateCall connector])
  | CallDeactivate =>
      mkWidget (triedAuthorizedConnection wd) (connectionState wd) (world wd)
               (calls wd ++ [deactivateCall])
  end.

Definition run (h : Handler) (wd : Widget) : Widget :=
  fold_left (fun wd' c => exec c wd') h wd.

(** The body of [useEffect(..., [error, deactivate])]. *)
Definition errorEffect (error : option JS.Error) : Handler :=
  match error with
  | Some e => [Dispatch (fail e); CallDeactivate]
  | None => []
  end.

(** The body of [useEffect(..., [active])]. *)
Definition activeEffect (isActive : bool) : Handler :=
  if isActive
  then [Dispatch (plain finishActivating)]
  else [Dispatch (plain deactivate)].

(** What the component returns, with the handlers it installs; styling,
    icons and running text are left out. *)
Record Button : Type := mkButton {
  label : string;
  onClick : Handler
}.

Inductive Dialog : Type :=
  | RetryDialog (title : string) (onCancel onRetry : Handler)
  | ConnectionConfirmationDialog (title : string) (onCancel : Handler).

Inductive View : Type :=
  | Loader
  | Children
  | ConnectScreen (buttons : list Button) (modals : list Dialog).

Definition connectButton (text : string) (connector : AbstractConnector) : Button :=
  mkButton text [Dispatch (startActivating connector); CallActivate connector].

Definition retryHandler (connector : AbstractConnector) : Handler :=
  [Dispatch (plain retry); CallActivate connector].

Definition cancelHandler : Handler := [Dispatch (plain cancel)].

Definition WalletConnector (tried : bool) (state : ConnectionState)
    (window : Window) : View :=
  if negb tried then Loader
  else if String.eqb (state_type state) "active" then Children
  else
    ConnectScreen
      (if detectTally window || detectMetaMask window
       then [ connectButton "Connect to MetaMask" injectedMetaMaskProvider;
              connectButton "Connect to Tally" injectedTallyProvider ]
       else [ connectButton "Connect wallet" injectedMetaMaskProvider ])
      (match state with
       | WithConnector failed connector =>
           [RetryDialog "Failed to connect to your wallet"
                        cancelHandler (retryHandler connector)]
       | _ => []
       end ++
       match state with
       | WithConnector activating _ =>
           [ConnectionConfirmationDialog "Confirm connection with your wallet"
                                         cancelHandler]
       | _ => []
       end ++
       match state with
       | WithConnector rejectedByUser connector =>
           [RetryDialog "Cancel connection?"
                        cancelHandler (retryHandler connector)]
       | _ => []
       end ++
       match state with
       | WithConnector alreadyPending connector =>
           [RetryDialog "Connection already requested"
                        cancelHandler (retryHandler connector)]
       | _ => []
       end).

Definition buttons_of (v : View) : list Button :=
  match v with
  | ConnectScreen buttons _ => buttons
  | _ => []
  end.

Definition modals_of (v : View) : list Dialog :=
  match v with
  | ConnectScreen _ modals => modals
  | _ => []
  end.

Definition dialog_onCancel (d : Dialog) : Handler :=
  match d with
  | RetryDialog _ onCancel _ => onCancel
  | ConnectionConfirmationDialog _ onCancel => onCancel
  end.

Definition dialog_onRetry (d : Dialog) : option Handler :=
  match d with
  | RetryDialog _ _ onRetry => Some onRetry
  | ConnectionConfirmationDialog _ _ => None
  end.

(** What the component renders for a widget. *)
Definition render (window : Window) (wd : Widget) : View :=
  WalletConnector (triedAuthorizedConnection wd) (connectionState wd) window.

(** What can happen to a mounted widget: a click on the i-th button or on
    the cancel or retry button of the i-th dialog of the current rendering,
    or a change of one of the values the hooks return. *)
Inductive Event : Type :=
  | ClickButton (i : nat)
  | ClickCancel (i : nat)
  | ClickRetry (i : nat)
  | ErrorChanged (error : option JS.Error)
  | ActiveChanged (isActive : bool)
  | TriedChanged (tried : bool).

Definition handler_of (v : View) (ev : Event) : option Handler :=
  match ev with
  | ClickButton i => option_map onClick (nth_error (buttons_of v) i)
  | ClickCancel i => option_map dialog_onCancel (nth_error (modals_of v) i)
  | ClickRetry i =>
      match nth_error (modals_of v) i with
      | Some d => dialog_onRetry d
      | None => None
      end
  | ErrorChanged error => Some (errorEffect error)
  | ActiveChanged isActive => Some (activeEffect isActive)
  | TriedChanged _ => Some []
  end.

(** One event; [None] when the element clicked is not on the screen. *)
Definition react (window : Window) (ev : Event) (wd : Widget) : option Widget :=
  match handler_of (render window wd) ev with
  | Some h =>
      let wd' := run h wd in
      Some match ev with
           | TriedChanged tried =>
               mkWidget tried (connectionState wd') (world wd') (calls wd')
           | _ => wd'
           end
  | None => None
  end.

Fixpoint play (window : Window) (evs : list Event) (wd : Widget)
  : option Widget :=
  match evs with
  | [] => Some wd
  | ev :: rest =>
      match react window ev wd with
      | Some wd' => play window rest wd'
      | None => None
      end
  end.

(** The widget as [useReducer] and the hooks first have it. *)
Definition mounted : Widget := mkWidget false Inactive initial_world [].

(** The failure variants, those shown with a retry dialog. *)
Definition is_failure (ty : ConnectedType) : bool :=
  match ty with
  | rejectedByUser | alreadyPending | failed => true
  | activating | active => false
  end.

(** The two handles connectors.ts exports. *)
Definition registry_handles : list AbstractConnector :=
  [injectedMetaMaskProvider; injectedTallyProvider].

(** The connectors the connect buttons are rendered with. *)
Definition offered (window : Window) : list AbstractConnector :=
  if detectTally window || detectMetaMask window
  then registry_handles
  else [injectedMetaMaskProvider].

(** A call [dispatch(startActivating c)] or [activate(c)] with [c] among
    the connectors [allowed]; any other call. *)
Definition cmd_within (allowed : list AbstractConnector) (c : Cmd) : Prop :=
  match c with
  | Dispatch (startActivating connector) => In connector allowed
  | CallActivate connector => In connector allowed
  | _ => True
  end.

(** The connectors a widget holds or has asked the library to activate are
    among [allowed], and its store is the one connectors.ts left. *)
Definition within (allowed : list AbstractConnector) (wd : Widget) : Prop :=
  (forall c, state_connector (connectionState wd) = Some c -> In c allowed) /\
  (forall c, In (activateCall c) (calls wd) -> In c allowed) /\
  heap (world wd) = initial_heap.

(** * Properties *)

(** ** The matcher finds exactly the case-insensitive occurrences *)

Section Matcher.

Variable re : JS.RegExp.
Hypothesis icase : JS.ignoreCase re = true.

Lemma Canonicalize_icase (c : ascii) : JS.Canonicalize re c = JS.toUpperCase c.
Proof using icase. unfold JS.Canonicalize. now rewrite icase. Qed.

Lemma matchAt_sound (pat s m : string) :
  JS.matchAt re pat s = Some m ->
  exists post : string, s = (m ++ post)%string /\ JS.upper m = JS.upper pat.
Proof using icase.
  revert s m.
  induction pat as [|p pat IH]; intros s m; simpl.
  - intros [= <-]. now exists s.
  - destruct s as [|c s]; [discriminate|].
    rewrite !Canonicalize_icase.
    destruct (Ascii.eqb_spec (JS.toUpperCase p) (JS.toUpperCase c)) as [E|_];
      [|discriminate].
    destruct (JS.matchAt re pat s) as [m'|] eqn:Hm; [|discriminate].
    intros [= <-].
    destruct (IH _ _ Hm) as (post & -> & Hup).
    exists post. simpl. now rewrite Hup, E.
Qed.

Lemma matchAt_complete (pat m post : string) :
  JS.upper m = JS.upper pat ->
  JS.matchAt re pat (m ++ post) = Some m.
Proof using icase.
  revert m.
  induction pat as [|p pat IH]; intros [|c m]; simpl; try discriminate.
  - reflexivity.
  - intros [= Hc Hup].
    rewrite !Canonicalize_icase, Hc, Ascii.eqb_refl.
    now rewrite (IH _ Hup).
Qed.

Lemma execFrom_occurs (s : string) (i : nat) :
  JS.truthy (JS.execFrom re s i) = true -> JS.occurs_ci (JS.source re) s.
Proof using icase.
  revert i.
  induction s as [|c s IH]; intros i; simpl;
    destruct (JS.matchAt re (JS.source re) _) as [m|] eqn:Hm.
  - intros _. destruct (matchAt_sound _ _ _ Hm) as (post & E & Hup).
    now exists EmptyString, m, post.
  - discriminate.
  - intros _. destruct (matchAt_sound _ _ _ Hm) as (post & E & Hup).
    now exists EmptyString, m, post.
  - intros H. destruct (IH _ H) as (pre & mid & post & -> & Hup).
    now exists (String c pre), mid, post.
Qed.

Lemma execFrom_unfold (s : string) (i : nat) :
  JS.execFrom re s i =
  match JS.matchAt re (JS.source re) s with
  | Some m => Some (i, m)
  | None =>
      match s with
      | EmptyString => None
      | String _ s' => JS.execFrom re s' (S i)
      end
  end.
Proof. destruct s; reflexivity. Qed.

Lemma occurs_execFrom (pre mid post : string) (i : nat) :
  JS.upper mid = JS.upper (JS.source re) ->
  JS.truthy (JS.execFrom re (pre ++ mid ++ post) i) = true.
Proof using icase.
  intros Hup. revert i.
  induction pre as [|c pre IH]; intros i; rewrite execFrom_unfold.
  - change (EmptyString ++ mid ++ post)%string with (mid ++ post)%string.
    now rewrite (matchAt_complete _ _ post Hup).
  - destruct (JS.matchAt re (JS.source re) _); [reflexivity|].
    simpl. apply IH.
Qed.

(** [s.match(re)] is truthy exactly when the pattern occurs in [s]. *)
Lemma String_match_truthy (s : string) :
  JS.truthy (JS.String_match s re) = true <-> JS.occurs_ci (JS.source re) s.
Proof using icase.
  unfold JS.String_match. split.
  - apply execFrom_occurs.
  - intros (pre & mid & post & -> & Hup). now apply occurs_execFrom.
Qed.

End Matcher.

(** ** Helper facts about the reducer *)

Lemma not_Inactive_inv (s : ConnectionState) :
  s <> Inactive -> exists ty c, s = WithConnector ty c.
Proof. destruct s as [|ty c]; [congruence | intros _; now exists ty, c]. Qed.

(** What ignoring an action amounts to: the state comes back and the four
    lines of the diagnostic are appended to the console. *)
Lemma ignoring_eq (s : ConnectionState) (a : ConnectionAction) (w : World) :
  ignoring s a w = (s, mkWorld (heap w) (console w ++ diagnostic s a)).
Proof.
  unfold ignoring, bind, console_warn, console_log, ret, diagnostic.
  cbn [heap console]. now rewrite <- !app_assoc.
Qed.

(** The reducer never touches the store of connector objects. *)
Lemma reducer_heap_frame (s : ConnectionState) (a : ConnectionAction) (w : World) :
  heap (after s a w) = heap w.
Proof.
  destruct a as [c|e|[| | |]], s as [|ty c']; reflexivity.
Qed.

(** ** The examples of the specification, run on the reducer *)

Example classify_user_rejected :
  reduce (WithConnector activating injectedTallyProvider)
         (fail (JS.mkError "User Rejected")) initial_world
  = WithConnector rejectedByUser injectedTallyProvider.
Proof. reflexivity. Qed.

Example classify_already_pending :
  reduce (WithConnector activating injectedTallyProvider)
         (fail (JS.mkError "Request already pending")) initial_world
  = WithConnector alreadyPending injectedTallyProvider.
Proof. reflexivity. Qed.

Example classify_unknown_failure :
  reduce (WithConnector activating injectedTallyProvider)
         (fail (JS.mkError "Unknown failure")) initial_world
  = WithConnector failed injectedTallyProvider.
Proof. reflexivity. Qed.

Example scenario_reject_retry_finish :
  dispatch_all
    [ startActivating injectedMetaMaskProvider;
      fail (JS.mkError "User rejected the request");
      plain retry;
      plain finishActivating ]
    Inactive initial_world
  = (WithConnector active injectedMetaMaskProvider, initial_world).
Proof. reflexivity. Qed.

Example scenario_pending_cancel :
  dispatch_all
    [ startActivating injectedTallyProvider;
      fail (JS.mkError "Request already pending");
      plain cancel ]
    Inactive initial_world
  = (Inactive, initial_world).
Proof. reflexivity. Qed.

Example user_rejected_occurs :
  JS.occurs_ci "user rejected" "MetaMask: User Rejected the request.".
Proof. now exists "MetaMask: ", "User Rejected", " the request.". Qed.

(** ** The claims *)

(** C1. For every state [s] other than [Inactive] and every error [e],
    [reduce s (fail e)] is a state with the connector of [s]; its variant is
    [rejectedByUser] when the message of [e] has an occurrence of
    "user rejected" in any letter case, otherwise [alreadyPending] when it
    has one of "already pending", otherwise [failed].  Nothing is logged. *)
Theorem fail_classifies_keeping_connector
    (s : ConnectionState) (e : JS.Error) (w : World) :
  s <> Inactive ->
  exists (c : AbstractConnector) (ty : ConnectedType),
    state_connector s = Some c /\
    reduce s (fail e) w = WithConnector ty c /\
    after s (fail e) w = w /\
    (JS.occurs_ci "user rejected" (JS.message e) -> ty = rejectedByUser) /\
    (~ JS.occurs_ci "user rejected" (JS.message e) ->
     JS.occurs_ci "already pending" (JS.message e) -> ty = alreadyPending) /\
    (~ JS.occurs_ci "user rejected" (JS.message e) ->
     ~ JS.occurs_ci "already pending" (JS.message e) -> ty = failed).
Proof.
  intros Hs. destruct (not_Inactive_inv s Hs) as (ty0 & c & ->).
  pose proof (String_match_truthy userRejected eq_refl (JS.message e)) as Hur.
  pose proof (String_match_truthy alreadyPendingRe eq_refl (JS.message e)) as Hap.
  change (JS.source userRejected) with "user rejected" in Hur.
  change (JS.source alreadyPendingRe) with "already pending" in Hap.
  unfold reduce, after. cbn [connectionReducer ret fst snd state_connector].
  destruct (JS.truthy (JS.String_match (JS.message e) userRejected)) eqn:Eur.
  - exists c, rejectedByUser. repeat split; trivial.
    + intros N. exfalso. apply N, Hur. reflexivity.
    + intros N. exfalso. apply N, Hur. reflexivity.
  - assert (Nur : ~ JS.occurs_ci "user rejected" (JS.message e)).
    { intros O. apply Hur in O. discriminate. }
    destruct (JS.truthy (JS.String_match (JS.message e) alreadyPendingRe)) eqn:Eap.
    + exists c, alreadyPending. repeat split; trivial.
      * intros O. contradiction.
      * intros _ N. exfalso. apply N, Hap. reflexivity.
    + exists c, failed. repeat split; trivial.
      * intros O. contradiction.
      * intros _ O. apply Hap in O. discriminate.
Qed.

Lemma fail_classifies_keeping_connector_witness :
  WithConnector activating injectedTallyProvider <> Inactive /\
  exists (c : AbstractConnector) (ty : ConnectedType),
    state_connector (WithConnector activating injectedTallyProvider) = Some c /\
    reduce (WithConnector activating injectedTallyProvider)
           (fail (JS.mkError "User rejected the request")) initial_world
      = WithConnector ty c /\
    after (WithConnector activating injectedTallyProvider)
          (fail (JS.mkError "User rejected the request")) initial_world
      = initial_world /\
    (JS.occurs_ci "user rejected" "User rejected the request" ->
     ty = rejectedByUser) /\
    (~ JS.occurs_ci "user rejected" "User rejected the request" ->
     JS.occurs_ci "already pending" "User rejected the request" ->
     ty = alreadyPending) /\
    (~ JS.occurs_ci "user rejected" "User rejected the request" ->
     ~ JS.occurs_ci "already pending" "User rejected the request" ->
     ty = failed).
Proof.
  split; [discriminate|].
  apply (fail_classifies_keeping_connector
           (WithConnector activating injectedTallyProvider)
           (JS.mkError "User rejected the request") initial_world).
  discriminate.
Defined.

(** C2. For every state [s], [reduce s finishActivating] is an [active]
    state; from [Inactive] its connector is [injectedMetaMaskProvider], the
    handle of the general wallet family, and from any other state the
    connector of [s] carries over, so that activating [c] becomes active
    [c]. *)
Theorem finishActivating_yields_active (w : World) :
  (forall s : ConnectionState,
     state_type (reduce s (plain finishActivating) w) = "active") /\
  reduce Inactive (plain finishActivating) w
    = WithConnector active injectedMetaMaskProvider /\
  (forall (ty : ConnectedType) (c : AbstractConnector),
     reduce (WithConnector ty c) (plain finishActivating) w
       = WithConnector active c) /\
  (forall c : AbstractConnector,
     reduce (WithConnector activating c) (plain finishActivating) w
       = WithConnector active c) /\
  (forall s : ConnectionState, after s (plain finishActivating) w = w).
Proof.
  repeat split; try (intros [|ty c]; reflexivity).
Qed.

(** C3. For every state [s], hence for every reachable one, a single
    [cancel] and a single [deactivate] both lead to [Inactive]; neither
    logs anything. *)
Theorem cancel_deactivate_reach_Inactive (s : ConnectionState) (w : World) :
  reduce s (plain cancel) w = Inactive /\
  reduce s (plain deactivate) w = Inactive /\
  after s (plain cancel) w = w /\
  after s (plain deactivate) w = w.
Proof. repeat split. Qed.

(** C4. For every state [s] other than [Inactive], [reduce s retry] is
    activating with the very connector of [s]; and from [Inactive], [retry]
    leaves the state as it is and prints the diagnostic. *)
Theorem retry_reactivates_same_connector (s : ConnectionState) (w : World) :
  (s <> Inactive ->
   exists c : AbstractConnector,
     state_connector s = Some c /\
     reduce s (plain retry) w = WithConnector activating c /\
     after s (plain retry) w = w) /\
  reduce Inactive (plain retry) w = Inactive /\
  console (after Inactive (plain retry) w)
    = console w ++ diagnostic Inactive (plain retry).
Proof.
  split.
  - intros Hs. destruct (not_Inactive_inv s Hs) as (ty & c & ->).
    exists c. repeat split.
  - split; [reflexivity|].
    unfold after. cbn [connectionReducer]. now rewrite ignoring_eq.
Qed.

Lemma retry_reactivates_same_connector_witness :
  WithConnector failed injectedTallyProvider <> Inactive /\
  exists c : AbstractConnector,
    state_connector (WithConnector failed injectedTallyProvider) = Some c /\
    reduce (WithConnector failed injectedTallyProvider) (plain retry)
           initial_world = WithConnector activating c /\
    after (WithConnector failed injectedTallyProvider) (plain retry)
          initial_world = initial_world.
Proof.
  split; [discriminate|].
  apply (proj1 (retry_reactivates_same_connector
                  (WithConnector failed injectedTallyProvider) initial_world)).
  discriminate.
Defined.

(** C5. For every error [e], a [fail e] arriving in [Inactive] leaves the
    state [Inactive]: the action is ignored, the diagnostic is printed and
    nothing else in the world changes. *)
Theorem fail_in_Inactive_is_ignored (e : JS.Error) (w : World) :
  reduce Inactive (fail e) w = Inactive /\
  console (after Inactive (fail e) w)
    = console w ++ diagnostic Inactive (fail e) /\
  heap (after Inactive (fail e) w) = heap w.
Proof.
  repeat split. unfold after. cbn [connectionReducer]. now rewrite ignoring_eq.
Qed.

(** C6. For every state [s] and action [a], the [type] of [reduce s a] is
    one of the six named ones, the result has a connector exactly when it
    is not [Inactive], and a combination the transition table gives no next
    state for returns the state it was given, printing the diagnostic;
    every other combination prints nothing. *)
Theorem reducer_stays_within_variants
    (s : ConnectionState) (a : ConnectionAction) (w : World) :
  In (state_type (reduce s a w)) state_types /\
  (reduce s a w = Inactive <-> state_connector (reduce s a w) = None) /\
  (state_type (reduce s a w) = "inactive" <-> reduce s a w = Inactive) /\
  connectionReducer s a w
    = if unmatched s a
      then (s, mkWorld (heap w) (console w ++ diagnostic s a))
      else (reduce s a w, w).
Proof.
  assert (T : forall r : ConnectionState,
             In (state_type r) state_types /\
             (r = Inactive <-> state_connector r = None) /\
             (state_type r = "inactive" <-> r = Inactive)).
  { intros [|[| | | |] c]; simpl; (split; [tauto|]);
      split; split; (reflexivity || discriminate). }
  destruct (T (reduce s a w)) as (T1 & T2 & T3).
  repeat split; try tauto.
  destruct a as [c|e|[| | |]], s as [|ty c']; try reflexivity;
    apply ignoring_eq.
Qed.

(** C7. For every state [s] and connector [c], [startActivating c] leads to
    activating [c], whatever [s] is and whatever connector it held. *)
Theorem startActivating_takes_action_connector
    (s : ConnectionState) (c : AbstractConnector) (w : World) :
  reduce s (startActivating c) w = WithConnector activating c /\
  after s (startActivating c) w = w.
Proof. split; reflexivity. Qed.

(** C8. [deactivate] is idempotent: dispatched twice in a row from any
    state it gives [Inactive] both times; the second call changes neither
    the state nor the world, and prints no diagnostic. *)
Theorem deactivate_idempotent (s : ConnectionState) (w : World) :
  let s1 := reduce s (plain deactivate) w in
  let w1 := after s (plain deactivate) w in
  s1 = Inactive /\
  reduce s1 (plain deactivate) w1 = Inactive /\
  reduce s1 (plain deactivate) w1 = s1 /\
  after s1 (plain deactivate) w1 = w1 /\
  dispatch_all [plain deactivate; plain deactivate] s w = (Inactive, w).
Proof. repeat split. Qed.

(** C9. Loading connectors.ts allocates exactly two connector objects,
    distinct from one another: [injectedMetaMaskProvider], whose allow-list
    has exactly five network identifiers, and [injectedTallyProvider],
    whose allow-list has exactly one; and no call of the reducer changes
    the store they live in. *)
Theorem registry_has_two_fixed_handles :
  List.length initial_heap = 2 /\
  injectedMetaMaskProvider <> injectedTallyProvider /\
  (exists o : InjectedConnector,
     deref initial_heap injectedMetaMaskProvider = Some o /\
     supportedChainIds o = [1; 3; 4; 5; 42]%Z /\
     List.length (supportedChainIds o) = 5 /\
     NoDup (supportedChainIds o)) /\
  (exists o : InjectedConnector,
     deref initial_heap injectedTallyProvider = Some o /\
     supportedChainIds o = [1]%Z /\
     List.length (supportedChainIds o) = 1) /\
  (forall (actions : list ConnectionAction) (s : ConnectionState) (w : World),
     heap (snd (dispatch_all actions s w)) = heap w).
Proof.
  split; [reflexivity|]. split; [discriminate|].
  split; [|split].
  - eexists. split; [reflexivity|]. split; [reflexivity|].
    split; [reflexivity|]. simpl.
    repeat (constructor; [simpl; intros H; repeat destruct H as [H|H];
                          discriminate || exact H|]).
    constructor.
  - eexists. repeat split.
  - induction actions as [|a rest IH]; intros s w; simpl; [reflexivity|].
    pose proof (reducer_heap_frame s a w) as F. unfold after in F.
    destruct (connectionReducer s a w) as [s' w']. simpl in F.
    now rewrite IH.
Qed.

(** C10. [retry] is idempotent on the state: a second [retry] after a
    first one gives the state the first one gave. *)
Theorem retry_idempotent (s : ConnectionState) (w : World) :
  reduce (reduce s (plain retry) w) (plain retry) (after s (plain retry) w)
  = reduce s (plain retry) w.
Proof. destruct s as [|ty c]; reflexivity. Qed.

(** * Further properties of the code *)

(** ** Strings and the classification of error messages *)

Lemma str_app_assoc (a b c : string) :
  ((a ++ b) ++ c)%string = (a ++ b ++ c)%string.
Proof. induction a as [|x a IH]; simpl; [reflexivity | now rewrite IH]. Qed.

Lemma str_length_app (a b : string) :
  String.length (a ++ b) = String.length a + String.length b.
Proof. induction a as [|x a IH]; simpl; [reflexivity | now rewrite IH]. Qed.

Lemma upper_length (s : string) : String.length (JS.upper s) = String.length s.
Proof. induction s as [|x s IH]; simpl; [reflexivity | now rewrite IH]. Qed.

Lemma occurs_ci_length (pat msg : string) :
  JS.occurs_ci pat msg -> String.length pat <= String.length msg.
Proof.
  intros (pre & mid & post & -> & Hup).
  apply (f_equal String.length) in Hup. rewrite !upper_length in Hup.
  rewrite !str_length_app. lia.
Qed.

Lemma occurs_ci_embed (pat msg pre post : string) :
  JS.occurs_ci pat msg -> JS.occurs_ci pat (pre ++ msg ++ post)%string.
Proof.
  intros (p & mid & q & -> & Hup).
  exists (pre ++ p)%string, mid, (q ++ post)%string. split; [|exact Hup].
  now rewrite !str_app_assoc.
Qed.

Lemma truthy_option_map {A B : Type} (f : A -> B) (o : option A) :
  JS.truthy (option_map f o) = JS.truthy o.
Proof. now destruct o. Qed.

Section CaseBlind.

Variable re : JS.RegExp.
Hypothesis icase : JS.ignoreCase re = true.

Lemma matchAt_case_blind (pat s s' : string) :
  JS.upper s = JS.upper s' ->
  JS.truthy (JS.matchAt re pat s) = JS.truthy (JS.matchAt re pat s').
Proof using icase.
  revert s s'.
  induction pat as [|p pat IH]; intros [|c s] [|c' s']; simpl;
    try reflexivity; try discriminate.
  intros [= Hc Hs]. rewrite !(Canonicalize_icase re icase), Hc.
  destruct (Ascii.eqb _ _); [|reflexivity].
  rewrite !truthy_option_map. now apply IH.
Qed.

Lemma execFrom_case_blind (s s' : string) (i : nat) :
  JS.upper s = JS.upper s' ->
  JS.truthy (JS.execFrom re s i) = JS.truthy (JS.execFrom re s' i).
Proof using icase.
  revert s' i.
  induction s as [|c s IH]; intros [|c' s'] i Hup; try discriminate.
  - reflexivity.
  - rewrite (execFrom_unfold re (String c s)), (execFrom_unfold re (String c' s')).
    pose proof (matchAt_case_blind (JS.source re) _ _ Hup) as Hm.
    destruct (JS.matchAt re (JS.source re) (String c s)),
             (JS.matchAt re (JS.source re) (String c' s'));
      simpl in Hm; try discriminate; [reflexivity|].
    injection Hup as _ Hs. now apply IH.
Qed.

End CaseBlind.

(** The variant [fail] chooses for a message, as the reducer computes it. *)
Lemma reduce_fail_eq (ty : ConnectedType) (c : AbstractConnector)
    (e : JS.Error) (w : World) :
  reduce (WithConnector ty c) (fail e) w
  = WithConnector
      (if JS.truthy (JS.String_match (JS.message e) userRejected)
       then rejectedByUser
       else if JS.truthy (JS.String_match (JS.message e) alreadyPendingRe)
       then alreadyPending
       else failed) c.
Proof. reflexivity. Qed.

Lemma userRejected_occurs (msg : string) :
  JS.truthy (JS.String_match msg userRejected) = true
  <-> JS.occurs_ci "user rejected" msg.
Proof. exact (String_match_truthy userRejected eq_refl msg). Qed.

Lemma alreadyPending_occurs (msg : string) :
  JS.truthy (JS.String_match msg alreadyPendingRe) = true
  <-> JS.occurs_ci "already pending" msg.
Proof. exact (String_match_truthy alreadyPendingRe eq_refl msg). Qed.

(** X1. Two error messages that differ only in letter case are classified
    alike: the state after [fail] is the same for both. *)
Theorem fail_classification_case_blind
    (s : ConnectionState) (m1 m2 : string) (w : World) :
  JS.upper m1 = JS.upper m2 ->
  reduce s (fail (JS.mkError m1)) w = reduce s (fail (JS.mkError m2)) w.
Proof.
  intros Hup. destruct s as [|ty c]; [reflexivity|].
  rewrite !reduce_fail_eq. cbn [JS.message]. unfold JS.String_match.
  rewrite (execFrom_case_blind userRejected eq_refl m1 m2 0 Hup).
  now rewrite (execFrom_case_blind alreadyPendingRe eq_refl m1 m2 0 Hup).
Qed.

Lemma fail_classification_case_blind_witness :
  JS.upper "uSeR ReJeCtEd" = JS.upper "User rejected" /\
  reduce (WithConnector activating injectedTallyProvider)
         (fail (JS.mkError "uSeR ReJeCtEd")) initial_world
  = reduce (WithConnector activating injectedTallyProvider)
           (fail (JS.mkError "User rejected")) initial_world.
Proof.
  split; [reflexivity|].
  apply (fail_classification_case_blind
           (WithConnector activating injectedTallyProvider)
           "uSeR ReJeCtEd" "User rejected" initial_world).
  reflexivity.
Defined.

(** X2. Text around an error message never turns a recognised error into
    an unrecognised one: a message not classified [failed] stays so when
    text is put before and after it, and one classified [rejectedByUser]
    stays [rejectedByUser]. *)
Theorem fail_classification_survives_context
    (ty : ConnectedType) (c : AbstractConnector)
    (msg pre post : string) (w : World) :
  reduce (WithConnector ty c) (fail (JS.mkError msg)) w
    <> WithConnector failed c ->
  reduce (WithConnector ty c) (fail (JS.mkError (pre ++ msg ++ post))) w
    <> WithConnector failed c /\
  (reduce (WithConnector ty c) (fail (JS.mkError msg)) w
     = WithConnector rejectedByUser c ->
   reduce (WithConnector ty c) (fail (JS.mkError (pre ++ msg ++ post))) w
     = WithConnector rejectedByUser c).
Proof.
  rewrite !reduce_fail_eq. cbn [JS.message].
  pose proof (userRejected_occurs msg) as U.
  pose proof (alreadyPending_occurs msg) as A.
  pose proof (userRejected_occurs (pre ++ msg ++ post)) as U'.
  pose proof (alreadyPending_occurs (pre ++ msg ++ post)) as A'.
  destruct (JS.truthy (JS.String_match msg userRejected)).
  - intros _.
    assert (E : JS.truthy (JS.String_match (pre ++ msg ++ post) userRejected) = true).
    { apply U', occurs_ci_embed, U. reflexivity. }
    rewrite E. split; [discriminate | reflexivity].
  - destruct (JS.truthy (JS.String_match msg alreadyPendingRe));
      [|intros N; now contradiction N].
    intros _.
    assert (E : JS.truthy (JS.String_match (pre ++ msg ++ post) alreadyPendingRe) = true).
    { apply A', occurs_ci_embed, A. reflexivity. }
    rewrite E. split; [|discriminate].
    destruct (JS.truthy (JS.String_match (pre ++ msg ++ post) userRejected));
      discriminate.
Qed.

Lemma fail_classification_survives_context_witness :
  reduce (WithConnector activating injectedMetaMaskProvider)
         (fail (JS.mkError "Already Pending")) initial_world
    <> WithConnector failed injectedMetaMaskProvider /\
  reduce (WithConnector activating injectedMetaMaskProvider)
         (fail (JS.mkError ("Request " ++ "Already Pending" ++ "!")))
         initial_world
    <> WithConnector failed injectedMetaMaskProvider.
Proof.
  split; [discriminate|].
  apply (proj1 (fail_classification_survives_context
                  activating injectedMetaMaskProvider
                  "Already Pending" "Request " "!" initial_world
                  ltac:(discriminate))).
Defined.

(** X3. An error message shorter than thirteen characters, the empty one
    included, is always classified [failed]; one shorter than fifteen is
    never classified [alreadyPending]. *)
Theorem short_message_fails
    (ty : ConnectedType) (c : AbstractConnector) (msg : string) (w : World) :
  String.length msg < 15 ->
  reduce (WithConnector ty c) (fail (JS.mkError msg)) w
    <> WithConnector alreadyPending c /\
  (String.length msg < 13 ->
   reduce (WithConnector ty c) (fail (JS.mkError msg)) w
     = WithConnector failed c).
Proof.
  intros L15. rewrite !reduce_fail_eq. cbn [JS.message].
  pose proof (userRejected_occurs msg) as U.
  pose proof (alreadyPending_occurs msg) as A.
  assert (NA : JS.truthy (JS.String_match msg alreadyPendingRe) = false).
  { destruct (JS.truthy (JS.String_match msg alreadyPendingRe)); [|reflexivity].
    apply proj1 in A. specialize (A eq_refl).
    apply occurs_ci_length in A. simpl in A. lia. }
  rewrite NA. split.
  - destruct (JS.truthy (JS.String_match msg userRejected)); discriminate.
  - intros L13.
    destruct (JS.truthy (JS.String_match msg userRejected)); [|reflexivity].
    apply proj1 in U. specialize (U eq_refl).
    apply occurs_ci_length in U. simpl in U. lia.
Qed.

Lemma short_message_fails_witness :
  String.length "" < 15 /\
  reduce (WithConnector activating injectedTallyProvider)
         (fail (JS.mkError "")) initial_world
    = WithConnector failed injectedTallyProvider.
Proof.
  split; [simpl; lia|].
  apply (proj2 (short_message_fails activating injectedTallyProvider ""
                  initial_world ltac:(simpl; lia))).
  simpl; lia.
Defined.

(** ** What leads to each variant *)

Lemma fail_result_is_failure (ty : ConnectedType) (c : AbstractConnector)
    (e : JS.Error) (w : World) :
  exists ty' : ConnectedType,
    is_failure ty' = true /\
    reduce (WithConnector ty c) (fail e) w = WithConnector ty' c.
Proof.
  rewrite reduce_fail_eq.
  destruct (JS.truthy _); [now exists rejectedByUser|].
  destruct (JS.truthy _); [now exists alreadyPending | now exists failed].
Qed.

(** Case analysis on equations between states and actions. *)
Ltac cause :=
  intros;
  repeat match goal with
    | H : exists _, _ |- _ => destruct H
    | H : _ /\ _ |- _ => destruct H
    | H : _ \/ _ |- _ => destruct H
    | H : WithConnector _ _ = WithConnector _ _ |- _ =>
        injection H as ? ?; subst
    end;
  subst; simpl in *; try discriminate; try congruence;
  try solve [ repeat eexists; eauto; congruence
            | left; repeat eexists; eauto; congruence
            | right; left; repeat eexists; eauto; congruence
            | right; right; split; [reflexivity|];
              (left; eexists; reflexivity) || (right; reflexivity)
            | right; split; congruence ].

(** X4. Each variant has its own cause.  The next state is [active] only
    after [finishActivating]; it is [activating] only after
    [startActivating], or [retry] outside [Inactive]; it is one of the three
    failure variants only after [fail] outside [Inactive]; and it is
    [Inactive] only after [cancel] or [deactivate], or when [fail] or
    [retry] was ignored in [Inactive]. *)
Theorem each_variant_has_its_cause
    (s : ConnectionState) (a : ConnectionAction) (w : World) :
  ((exists c, reduce s a w = WithConnector active c)
   <-> a = plain finishActivating) /\
  ((exists c, reduce s a w = WithConnector activating c)
   <-> (exists c, a = startActivating c) \/ (a = plain retry /\ s <> Inactive)) /\
  ((exists ty c, is_failure ty = true /\ reduce s a w = WithConnector ty c)
   <-> (exists e, a = fail e) /\ s <> Inactive) /\
  (reduce s a w = Inactive
   <-> a = plain cancel \/ a = plain deactivate \/
       (s = Inactive /\ ((exists e, a = fail e) \/ a = plain retry))).
Proof.
  destruct a as [c0|e|[| | |]].
  - change (reduce s (startActivating c0) w) with (WithConnector activating c0).
    repeat split; cause.
  - destruct s as [|ty0 c0].
    + change (reduce Inactive (fail e) w) with Inactive.
      repeat split; cause.
    + destruct (fail_result_is_failure ty0 c0 e w) as (ty' & F & ->).
      repeat split; cause.
  - assert (E : exists c, reduce s (plain finishActivating) w
                          = WithConnector active c).
    { destruct s as [|ty c]; eexists; reflexivity. }
    destruct E as (c1 & ->).
    repeat split; cause.
  - destruct s as [|ty0 c0].
    + change (reduce Inactive (plain retry) w) with Inactive.
      repeat split; cause.
    + change (reduce (WithConnector ty0 c0) (plain retry) w)
        with (WithConnector activating c0).
      repeat split; cause.
  - change (reduce s (plain cancel) w) with Inactive.
    repeat split; cause.
  - change (reduce s (plain deactivate) w) with Inactive.
    repeat split; cause.
Qed.

(** ** Runs of the reducer *)

Lemma dispatch_all_cons (a : ConnectionAction) (rest : list ConnectionAction)
    (s : ConnectionState) (w : World) :
  dispatch_all (a :: rest) s w = dispatch_all rest (reduce s a w) (after s a w).
Proof.
  unfold reduce, after. simpl. now destruct (connectionReducer s a w).
Qed.

Lemma reduce_connector_origin (s : ConnectionState) (a : ConnectionAction)
    (w : World) (c : AbstractConnector) :
  state_connector (reduce s a w) = Some c ->
  c = injectedMetaMaskProvider \/ state_connector s = Some c \/
  a = startActivating c.
Proof.
  destruct a as [c0|e|[| | |]], s as [|ty0 c0']; try discriminate;
    intros [= <-]; tauto.
Qed.

(** X5. The reducer never makes up a connector: whatever actions are
    dispatched, a connector found in the final state is the one of the
    starting state, or one brought by a [startActivating] among the actions,
    or [injectedMetaMaskProvider]. *)
Theorem connector_comes_from_somewhere
    (actions : list ConnectionAction) (s : ConnectionState) (w : World)
    (c : AbstractConnector) :
  state_connector (fst (dispatch_all actions s w)) = Some c ->
  c = injectedMetaMaskProvider \/ state_connector s = Some c \/
  In (startActivating c) actions.
Proof.
  revert s w.
  induction actions as [|a rest IH]; intros s w; [simpl; tauto|].
  rewrite dispatch_all_cons. intros H.
  destruct (IH _ _ H) as [E|[E|E]]; [tauto | | right; right; now right].
  destruct (reduce_connector_origin _ _ _ _ E) as [E'|[E'|E']];
    [tauto | tauto | right; right; left; now symmetry].
Qed.

Lemma connector_comes_from_somewhere_witness :
  state_connector
    (fst (dispatch_all [startActivating injectedTallyProvider;
                        fail (JS.mkError "Already pending"); plain retry]
                       Inactive initial_world))
  = Some injectedTallyProvider /\
  (injectedTallyProvider = injectedMetaMaskProvider \/
   state_connector Inactive = Some injectedTallyProvider \/
   In (startActivating injectedTallyProvider)
      [startActivating injectedTallyProvider;
       fail (JS.mkError "Already pending"); plain retry]).
Proof.
  split; [reflexivity|].
  apply (connector_comes_from_somewhere
           [startActivating injectedTallyProvider;
            fail (JS.mkError "Already pending"); plain retry]
           Inactive initial_world injectedTallyProvider).
  reflexivity.
Defined.

(** X6. Only [cancel] and [deactivate] end an attempt: a run that starts
    outside [Inactive] and has neither of them ends outside [Inactive],
    ignores no action and prints nothing. *)
Theorem attempt_lasts_until_cancelled
    (actions : list ConnectionAction) (s : ConnectionState) (w : World) :
  s <> Inactive ->
  ~ In (plain cancel) actions ->
  ~ In (plain deactivate) actions ->
  fst (dispatch_all actions s w) <> Inactive /\
  snd (dispatch_all actions s w) = w.
Proof.
  revert s.
  induction actions as [|a rest IH]; intros s Hs Hc Hd; [now split|].
  rewrite dispatch_all_cons.
  assert (Hs' : reduce s a w <> Inactive).
  { intros E.
    apply (proj2 (proj2 (proj2 (each_variant_has_its_cause s a w)))) in E.
    destruct E as [->|[->|(E & _)]];
      [apply Hc; now left | apply Hd; now left | contradiction]. }
  assert (Hw : after s a w = w).
  { destruct (not_Inactive_inv s Hs) as (ty & c & ->).
    destruct a as [c0|e|[| | |]]; reflexivity. }
  rewrite Hw. apply IH; [exact Hs' | |]; intros H; [apply Hc | apply Hd];
    now right.
Qed.

Lemma attempt_lasts_until_cancelled_witness :
  WithConnector active injectedMetaMaskProvider <> Inactive /\
  ~ In (plain cancel) [fail (JS.mkError "boom"); plain retry] /\
  ~ In (plain deactivate) [fail (JS.mkError "boom"); plain retry] /\
  fst (dispatch_all [fail (JS.mkError "boom"); plain retry]
         (WithConnector active injectedMetaMaskProvider) initial_world)
    <> Inactive /\
  snd (dispatch_all [fail (JS.mkError "boom"); plain retry]
         (WithConnector active injectedMetaMaskProvider) initial_world)
    = initial_world.
Proof.
  assert (N1 : ~ In (plain cancel) [fail (JS.mkError "boom"); plain retry]).
  { simpl. intros [H|[H|[]]]; discriminate. }
  assert (N2 : ~ In (plain deactivate) [fail (JS.mkError "boom"); plain retry]).
  { simpl. intros [H|[H|[]]]; discriminate. }
  split; [discriminate|]. split; [exact N1|]. split; [exact N2|].
  apply (attempt_lasts_until_cancelled
           [fail (JS.mkError "boom"); plain retry]
           (WithConnector active injectedMetaMaskProvider) initial_world
           ltac:(discriminate) N1 N2).
Defined.

(** ** The provider factories *)

(** X7. Each call of a factory makes a new object: on any store,
    [createInjectedMetaMaskProvider] and [createInjectedTallyProvider]
    return a reference that was not in use, the new object has the
    factory's allow-list, and every reference in use before still denotes
    the object it did. *)
Theorem factories_make_fresh_handles (h : Heap) :
  let (m, h1) := createInjectedMetaMaskProvider h in
  let (t, h2) := createInjectedTallyProvider h1 in
  deref h m = None /\ deref h1 t = None /\ m <> t /\
  option_map supportedChainIds (deref h2 m) = Some [1; 3; 4; 5; 42]%Z /\
  option_map supportedChainIds (deref h2 t) = Some [1]%Z /\
  (forall (r : Ref) (o : InjectedConnector),
     deref h r = Some o -> deref h2 r = Some o).
Proof.
  unfold createInjectedMetaMaskProvider, createInjectedTallyProvider,
    new_InjectedConnector, deref.
  repeat split.
  - apply nth_error_None. lia.
  - apply nth_error_None. lia.
  - rewrite length_app. simpl. lia.
  - rewrite nth_error_app1 by (rewrite length_app; simpl; lia).
    now rewrite nth_error_app2, Nat.sub_diag by lia.
  - now rewrite nth_error_app2, Nat.sub_diag by lia.
  - intros r o H.
    assert (r < List.length h) by (apply nth_error_Some; congruence).
    rewrite !nth_error_app1; [exact H | lia | rewrite length_app; simpl; lia].
Qed.

(** ** Wallet detection *)

(** X8. A wallet is detected exactly when [window.ethereum] is there and
    its flag is [true]; a missing object or a missing flag counts as not
    detected. *)
Theorem detection_needs_flag_set (window : Window) :
  (detectMetaMask window = true
   <-> exists e, ethereum window = Some e /\ isMetaMask e = Some true) /\
  (detectTally window = true
   <-> exists e, ethereum window = Some e /\ isTally e = Some true) /\
  (ethereum window = None ->
   detectMetaMask window = false /\ detectTally window = false).
Proof.
  destruct window as [[[m t]|]]; unfold detectMetaMask, detectTally; simpl.
  - repeat split; try discriminate.
    + intros H. exists (mkEthereum m t). destruct m as [[|]|]; try discriminate.
      now split.
    + intros (e & [= <-] & H). simpl in H. now rewrite H.
    + intros H. exists (mkEthereum m t). destruct t as [[|]|]; try discriminate.
      now split.
    + intros (e & [= <-] & H). simpl in H. now rewrite H.
  - repeat split; try discriminate; intros (e & [=] & _).
Qed.

(** ** The component: what is rendered *)

Lemma run_cons (c : Cmd) (h : Handler) (wd : Widget) :
  run (c :: h) wd = run h (exec c wd).
Proof. reflexivity. Qed.

Lemma exec_Dispatch (a : ConnectionAction) (wd : Widget) :
  exec (Dispatch a) wd
  = mkWidget (triedAuthorizedConnection wd)
             (reduce (connectionState wd) a (world wd))
             (after (connectionState wd) a (world wd))
             (calls wd).
Proof.
  unfold exec, reduce, after.
  now destruct (connectionReducer (connectionState wd) a (world wd)).
Qed.

(** X9. The wrapped content is rendered exactly when the authorized
    connection was tried and the state is [active]; until it was tried, the
    loader is rendered whatever the state is. *)
Theorem children_only_when_active
    (tried : bool) (s : ConnectionState) (window : Window) :
  (WalletConnector tried s window = Loader <-> tried = false) /\
  (WalletConnector tried s window = Children
   <-> tried = true /\ exists c, s = WithConnector active c).
Proof.
  destruct tried; [|repeat split; cause].
  destruct s as [|[| | | |] c]; unfold WalletConnector; simpl;
    repeat split; cause.
Qed.

(** X10. At most one dialog is rendered.  None is when the loader or the
    content is shown or the state is [Inactive]; in [activating] it is the
    confirmation dialog, which has no retry button, and in the three failure
    states it is a retry dialog. *)
Theorem one_dialog_per_state
    (tried : bool) (s : ConnectionState) (window : Window) :
  List.length (modals_of (WalletConnector tried s window)) <= 1 /\
  (modals_of (WalletConnector tried s window) = []
   <-> tried = false \/ s = Inactive \/ exists c, s = WithConnector active c) /\
  (forall d, In d (modals_of (WalletConnector tried s window)) ->
     (dialog_onRetry d = None <-> exists c, s = WithConnector activating c) /\
     (dialog_onRetry d <> None
      <-> exists ty c, is_failure ty = true /\ s = WithConnector ty c)).
Proof.
  destruct tried; [|simpl; repeat split; cause; lia].
  destruct s as [|[| | | |] c]; unfold WalletConnector; simpl;
    (split; [lia|]); (split; [split; cause|]);
    intros d Hd; simpl in Hd; try contradiction;
    destruct Hd as [<-|[]]; simpl; repeat split; cause.
Qed.

(** ** The component: what the handlers do *)

Lemma buttons_connect (tried : bool) (s : ConnectionState) (window : Window)
    (b : Button) :
  In b (buttons_of (WalletConnector tried s window)) ->
  exists (text : string) (c : AbstractConnector),
    b = connectButton text c /\ In c (offered window).
Proof.
  unfold WalletConnector, offered, registry_handles.
  destruct tried; simpl; [|contradiction].
  destruct (String.eqb (state_type s) "active"); simpl; [contradiction|].
  destruct (detectTally window || detectMetaMask window); simpl;
    intros H; repeat destruct H as [<-|H]; try contradiction;
    eexists _, _; (split; [reflexivity|]); simpl; tauto.
Qed.

Lemma run_connect (text : string) (c : AbstractConnector) (wd : Widget) :
  run (onClick (connectButton text c)) wd
  = mkWidget (triedAuthorizedConnection wd) (WithConnector activating c)
             (world wd) (calls wd ++ [activateCall c]).
Proof.
  unfold connectButton. cbn [onClick]. now rewrite !run_cons, exec_Dispatch.
Qed.

Lemma modals_handlers (tried : bool) (s : ConnectionState) (window : Window)
    (d : Dialog) :
  In d (modals_of (WalletConnector tried s window)) ->
  dialog_onCancel d = cancelHandler /\
  forall h, dialog_onRetry d = Some h ->
    exists ty c, is_failure ty = true /\ s = WithConnector ty c /\
                 h = retryHandler c.
Proof.
  destruct tried; [|simpl; contradiction].
  destruct s as [|[| | | |] c]; unfold WalletConnector; simpl;
    try contradiction; intros [<-|[]]; simpl; (split; [reflexivity|]);
    intros h [= <-]; eexists _, c;
    (split; [|split; reflexivity]); reflexivity.
Qed.

(** X11. Every connect button on the screen starts an attempt and asks the
    library for the same connector: after a click the state is activating
    [c] and the one call made is [activate c], where [c] is
    [injectedMetaMaskProvider], or [injectedTallyProvider] when a wallet was
    detected.  Nothing is printed. *)
Theorem connect_button_starts_attempt
    (window : Window) (wd : Widget) (b : Button) :
  In b (buttons_of (render window wd)) ->
  exists c : AbstractConnector,
    (c = injectedMetaMaskProvider \/
     (c = injectedTallyProvider /\
      detectTally window || detectMetaMask window = true)) /\
    run (onClick b) wd
    = mkWidget (triedAuthorizedConnection wd) (WithConnector activating c)
               (world wd) (calls wd ++ [activateCall c]).
Proof.
  intros Hb. destruct (buttons_connect _ _ _ _ Hb) as (text & c & -> & Hc).
  exists c. split; [|apply run_connect].
  unfold offered, registry_handles in Hc.
  destruct (detectTally window || detectMetaMask window); simpl in Hc;
    intuition.
Qed.

Lemma connect_button_starts_attempt_witness :
  In (connectButton "Connect to Tally" injectedTallyProvider)
     (buttons_of (render (mkWindow (Some (mkEthereum None (Some true))))
                         (mkWidget true Inactive initial_world []))) /\
  exists c : AbstractConnector,
    (c = injectedMetaMaskProvider \/
     (c = injectedTallyProvider /\
      detectTally (mkWindow (Some (mkEthereum None (Some true))))
      || detectMetaMask (mkWindow (Some (mkEthereum None (Some true))))
      = true)) /\
    run (onClick (connectButton "Connect to Tally" injectedTallyProvider))
        (mkWidget true Inactive initial_world [])
    = mkWidget true (WithConnector activating c) initial_world
               ([] ++ [activateCall c]).
Proof.
  assert (H : In (connectButton "Connect to Tally" injectedTallyProvider)
                 (buttons_of
                    (render (mkWindow (Some (mkEthereum None (Some true))))
                            (mkWidget true Inactive initial_world [])))).
  { simpl. right. left. reflexivity. }
  split; [exact H|].
  exact (connect_button_starts_attempt
           (mkWindow (Some (mkEthereum None (Some true))))
           (mkWidget true Inactive initial_world [])
           (connectButton "Connect to Tally" injectedTallyProvider) H).
Defined.

(** X12. The retry button of a dialog on the screen attempts the stored
    connector again: the state is then activating with the connector the
    failure state held, and the one call made is [activate] of that same
    connector. *)
Theorem retry_button_reactivates_stored
    (window : Window) (wd : Widget) (d : Dialog) (h : Handler) :
  In d (modals_of (render window wd)) ->
  dialog_onRetry d = Some h ->
  exists (ty : ConnectedType) (c : AbstractConnector),
    is_failure ty = true /\
    connectionState wd = WithConnector ty c /\
    run h wd
    = mkWidget (triedAuthorizedConnection wd) (WithConnector activating c)
               (world wd) (calls wd ++ [activateCall c]).
Proof.
  intros Hd Hr.
  destruct (proj2 (modals_handlers _ _ _ _ Hd) h Hr) as (ty & c & F & E & ->).
  exists ty, c. split; [exact F|]. split; [exact E|].
  unfold retryHandler. rewrite !run_cons, exec_Dispatch, E. reflexivity.
Qed.

Lemma retry_button_reactivates_stored_witness :
  In (RetryDialog "Cancel connection?" cancelHandler
        (retryHandler injectedTallyProvider))
     (modals_of (render (mkWindow None)
                   (mkWidget true
                      (WithConnector rejectedByUser injectedTallyProvider)
                      initial_world [deactivateCall]))) /\
  exists (ty : ConnectedType) (c : AbstractConnector),
    is_failure ty = true /\
    WithConnector rejectedByUser injectedTallyProvider = WithConnector ty c /\
    run (retryHandler injectedTallyProvider)
        (mkWidget true (WithConnector rejectedByUser injectedTallyProvider)
                  initial_world [deactivateCall])
    = mkWidget true (WithConnector activating c) initial_world
               ([deactivateCall] ++ [activateCall c]).
Proof.
  assert (H : In (RetryDialog "Cancel connection?" cancelHandler
                    (retryHandler injectedTallyProvider))
                 (modals_of (render (mkWindow None)
                    (mkWidget true
                       (WithConnector rejectedByUser injectedTallyProvider)
                       initial_world [deactivateCall])))).
  { simpl. left. reflexivity. }
  split; [exact H|].
  exact (retry_button_reactivates_stored (mkWindow None)
           (mkWidget true (WithConnector rejectedByUser injectedTallyProvider)
                     initial_world [deactivateCall])
           _ _ H eq_refl).
Defined.

(** X13. The cancel button of every dialog on the screen brings the state
    to [Inactive] and calls nothing of the wallet library: an attempt under
    way in the library is not stopped. *)
Theorem cancel_button_only_resets_state
    (window : Window) (wd : Widget) (d : Dialog) :
  In d (modals_of (render window wd)) ->
  run (dialog_onCancel d) wd
  = mkWidget (triedAuthorizedConnection wd) Inactive (world wd) (calls wd).
Proof.
  intros Hd. rewrite (proj1 (modals_handlers _ _ _ _ Hd)).
  unfold cancelHandler. now rewrite run_cons, exec_Dispatch.
Qed.

Lemma cancel_button_only_resets_state_witness :
  In (ConnectionConfirmationDialog "Confirm connection with your wallet"
        cancelHandler)
     (modals_of (render (mkWindow None)
                   (mkWidget true
                      (WithConnector activating injectedMetaMaskProvider)
                      initial_world
                      [activateCall injectedMetaMaskProvider]))) /\
  run cancelHandler
      (mkWidget true (WithConnector activating injectedMetaMaskProvider)
                initial_world [activateCall injectedMetaMaskProvider])
  = mkWidget true Inactive initial_world
             [activateCall injectedMetaMaskProvider].
Proof.
  assert (H : In (ConnectionConfirmationDialog
                    "Confirm connection with your wallet" cancelHandler)
                 (modals_of (render (mkWindow None)
                    (mkWidget true
                       (WithConnector activating injectedMetaMaskProvider)
                       initial_world
                       [activateCall injectedMetaMaskProvider])))).
  { simpl. left. reflexivity. }
  split; [exact H|].
  exact (cancel_button_only_resets_state (mkWindow None)
           (mkWidget true (WithConnector activating injectedMetaMaskProvider)
                     initial_world [activateCall injectedMetaMaskProvider])
           _ H).
Defined.

(** ** The component: what holds of every mounted widget *)

Lemma offered_has_MetaMask (window : Window) :
  In injectedMetaMaskProvider (offered window).
Proof.
  unfold offered, registry_handles. destruct (_ || _); simpl; tauto.
Qed.

Lemma offered_in_registry (window : Window) (c : AbstractConnector) :
  In c (offered window) -> In c registry_handles.
Proof.
  unfold offered, registry_handles. destruct (_ || _); simpl; tauto.
Qed.

Section Within.

Variable allowed : list AbstractConnector.
Hypothesis allowed_MetaMask : In injectedMetaMaskProvider allowed.

Lemma exec_within (c : Cmd) (wd : Widget) :
  within allowed wd -> cmd_within allowed c -> within allowed (exec c wd).
Proof using allowed_MetaMask.
  intros (Hs & Hc & Hh) Hcmd. destruct c as [a|c0|].
  - rewrite exec_Dispatch. unfold within. cbn [connectionState calls world].
    split; [|split; [exact Hc|]].
    + intros c E.
      destruct (reduce_connector_origin _ _ _ _ E) as [-> | [E' | ->]];
        [exact allowed_MetaMask | now apply Hs | exact Hcmd].
    + now rewrite reducer_heap_frame.
  - unfold within. simpl. split; [exact Hs|]. split; [|exact Hh].
    intros c Hin. apply in_app_or in Hin.
    destruct Hin as [Hin|[Hin|[]]]; [now apply Hc|].
    injection Hin as <-. exact Hcmd.
  - unfold within. simpl. split; [exact Hs|]. split; [|exact Hh].
    intros c Hin. apply in_app_or in Hin.
    destruct Hin as [Hin|[Hin|[]]]; [now apply Hc | discriminate].
Qed.

Lemma run_within (h : Handler) (wd : Widget) :
  within allowed wd -> Forall (cmd_within allowed) h ->
  within allowed (run h wd).
Proof using allowed_MetaMask.
  revert wd. induction h as [|c h IH]; intros wd Hw Hf; [exact Hw|].
  rewrite run_cons. inversion Hf; subst.
  apply IH; [now apply exec_within | assumption].
Qed.

End Within.

Lemma handler_within (window : Window) (wd : Widget) (ev : Event) (h : Handler) :
  within (offered window) wd ->
  handler_of (render window wd) ev = Some h ->
  Forall (cmd_within (offered window)) h.
Proof.
  intros (Hs & _ & _). unfold render.
  destruct ev as [i|i|i|[e|]|[|]|t]; simpl.
  - destruct (nth_error _ i) as [b|] eqn:Hb; [|discriminate].
    intros [= <-]. apply nth_error_In in Hb.
    destruct (buttons_connect _ _ _ _ Hb) as (text & c & -> & Hc).
    repeat constructor; exact Hc.
  - destruct (nth_error _ i) as [d|] eqn:Hd; [|discriminate].
    intros [= <-]. apply nth_error_In in Hd.
    rewrite (proj1 (modals_handlers _ _ _ _ Hd)). repeat constructor.
  - destruct (nth_error _ i) as [d|] eqn:Hd; [|discriminate].
    intros Hr. apply nth_error_In in Hd.
    destruct (proj2 (modals_handlers _ _ _ _ Hd) h Hr) as (ty & c & _ & E & ->).
    repeat constructor. simpl. apply Hs. now rewrite E.
  - intros [= <-]. repeat constructor.
  - intros [= <-]. constructor.
  - intros [= <-]. repeat constructor.
  - intros [= <-]. repeat constructor.
  - intros [= <-]. constructor.
Qed.

Lemma react_within (window : Window) (ev : Event) (wd wd' : Widget) :
  within (offered window) wd ->
  react window ev wd = Some wd' ->
  within (offered window) wd'.
Proof.
  intros Hw. unfold react.
  destruct (handler_of (render window wd) ev) as [h|] eqn:Hh; [|discriminate].
  pose proof (run_within _ (offered_has_MetaMask window) h wd Hw
                (handler_within _ _ _ _ Hw Hh)) as Hr.
  intros [= <-]. destruct ev; exact Hr.
Qed.

Lemma play_within (window : Window) (evs : list Event) (wd wd' : Widget) :
  within (offered window) wd ->
  play window evs wd = Some wd' ->
  within (offered window) wd'.
Proof.
  revert wd. induction evs as [|ev rest IH]; intros wd Hw; simpl.
  - now intros [= <-].
  - destruct (react window ev wd) as [wd1|] eqn:Hr; [|discriminate].
    apply IH. exact (react_within _ _ _ _ Hw Hr).
Qed.

Lemma mounted_within (allowed : list AbstractConnector) : within allowed mounted.
Proof. repeat split; simpl; (discriminate || contradiction). Qed.

Lemma registry_handle_valid (c : AbstractConnector) :
  In c registry_handles ->
  exists o : InjectedConnector,
    deref initial_heap c = Some o /\ In 1%Z (supportedChainIds o).
Proof.
  intros [<-|[<-|[]]]; eexists; (split; [reflexivity|]); simpl; tauto.
Qed.

(** X14. Whatever happens to a mounted widget (clicks on what is on the
    screen, changes of [active], [error] and the authorized-connection
    flag), the connector in its state and every connector it asked the
    library to activate is one the connect buttons offer; the connector in
    the state denotes an object of the store, and mainnet is on its
    allow-list. *)
Theorem widget_holds_offered_handles
    (window : Window) (evs : list Event) (wd : Widget) :
  play window evs mounted = Some wd ->
  (forall c, state_connector (connectionState wd) = Some c ->
     In c (offered window) /\
     exists o : InjectedConnector,
       deref (heap (world wd)) c = Some o /\ In 1%Z (supportedChainIds o)) /\
  (forall c, In (activateCall c) (calls wd) -> In c (offered window)).
Proof.
  intros Hp.
  destruct (play_within window evs mounted wd (mounted_within _) Hp)
    as (Hs & Hc & Hh).
  split; [|exact Hc].
  intros c E. split; [now apply Hs|].
  rewrite Hh. apply registry_handle_valid, (offered_in_registry window).
  now apply Hs.
Qed.

Lemma widget_holds_offered_handles_witness :
  play (mkWindow (Some (mkEthereum (Some true) None)))
       [TriedChanged true; ClickButton 1;
        ErrorChanged (Some (JS.mkError "User rejected the request."));
        ClickRetry 0]
       mounted
  = Some (mkWidget true (WithConnector activating injectedTallyProvider)
            initial_world
            [activateCall injectedTallyProvider; deactivateCall;
             activateCall injectedTallyProvider]) /\
  forall c, In (activateCall c)
              [activateCall injectedTallyProvider; deactivateCall;
               activateCall injectedTallyProvider] ->
            In c (offered (mkWindow (Some (mkEthereum (Some true) None)))).
Proof.
  split; [reflexivity|].
  exact (proj2 (widget_holds_offered_handles
                  (mkWindow (Some (mkEthereum (Some true) None)))
                  [TriedChanged true; ClickButton 1;
                   ErrorChanged (Some (JS.mkError "User rejected the request."));
                   ClickRetry 0]
                  _ eq_refl)).
Defined.

(** X15. With no wallet detected, the widget never uses the Tally handle:
    neither its state nor any [activate] call ever has
    [injectedTallyProvider]. *)
Theorem undetected_wallet_never_uses_Tally
    (window : Window) (evs : list Event) (wd : Widget) :
  detectMetaMask window = false ->
  detectTally window = false ->
  play window evs mounted = Some wd ->
  state_connector (connectionState wd) <> Some injectedTallyProvider /\
  ~ In (activateCall injectedTallyProvider) (calls wd).
Proof.
  intros Hm Ht Hp.
  destruct (play_within window evs mounted wd (mounted_within _) Hp)
    as (Hs & Hc & _).
  assert (N : ~ In injectedTallyProvider (offered window)).
  { unfold offered. rewrite Hm, Ht. simpl. intros [H|[]]. discriminate. }
  split; intros H; apply N; [now apply Hs | now apply Hc].
Qed.

Lemma undetected_wallet_never_uses_Tally_witness :
  detectMetaMask (mkWindow None) = false /\
  detectTally (mkWindow None) = false /\
  play (mkWindow None) [TriedChanged true; ClickButton 0; ActiveChanged true]
       mounted
  = Some (mkWidget true (WithConnector active injectedMetaMaskProvider)
            initial_world [activateCall injectedMetaMaskProvider]) /\
  ~ In (activateCall injectedTallyProvider)
       [activateCall injectedMetaMaskProvider].
Proof.
  split; [reflexivity|]. split; [reflexivity|]. split; [reflexivity|].
  exact (proj2 (undetected_wallet_never_uses_Tally (mkWindow None)
                  [TriedChanged true; ClickButton 0; ActiveChanged true]
                  _ eq_refl eq_refl eq_refl)).
Defined.

Lemma run_retryHandler (ty : ConnectedType) (c : AbstractConnector) (wd : Widget) :
  connectionState wd = WithConnector ty c ->
  run (retryHandler c) wd
  = mkWidget (triedAuthorizedConnection wd) (WithConnector activating c)
             (world wd) (calls wd ++ [activateCall c]).
Proof.
  intros E. unfold retryHandler. now rewrite !run_cons, exec_Dispatch, E.
Qed.

Lemma run_cancelHandler (wd : Widget) :
  run cancelHandler wd
  = mkWidget (triedAuthorizedConnection wd) Inactive (world wd) (calls wd).
Proof. unfold cancelHandler. now rewrite run_cons, exec_Dispatch. Qed.

Lemma run_errorEffect (e : JS.Error) (wd : Widget) :
  run (errorEffect (Some e)) wd
  = mkWidget (triedAuthorizedConnection wd)
             (reduce (connectionState wd) (fail e) (world wd))
             (after (connectionState wd) (fail e) (world wd))
             (calls wd ++ [deactivateCall]).
Proof. unfold errorEffect. now rewrite !run_cons, exec_Dispatch. Qed.

Lemma run_activeEffect (b : bool) (wd : Widget) :
  run (activeEffect b) wd
  = mkWidget (triedAuthorizedConnection wd)
             (reduce (connectionState wd)
                     (plain (if b then finishActivating else deactivate))
                     (world wd))
             (world wd) (calls wd).
Proof.
  unfold activeEffect.
  destruct b; rewrite run_cons, exec_Dispatch;
    destruct (connectionState wd); reflexivity.
Qed.

Lemma react_keeps_last_call (window : Window) (ev : Event) (wd wd' : Widget) :
  (forall c, connectionState wd = WithConnector activating c ->
     exists earlier, calls wd = earlier ++ [activateCall c]) ->
  react window ev wd = Some wd' ->
  forall c, connectionState wd' = WithConnector activating c ->
    exists earlier, calls wd' = earlier ++ [activateCall c].
Proof.
  intros J. unfold react, render.
  destruct (handler_of _ ev) as [h|] eqn:Hh; [|discriminate].
  intros [= <-] c.
  destruct ev as [i|i|i|[e|]|b|t]; cbn [handler_of] in Hh.
  - destruct (nth_error _ i) as [bt|] eqn:Hb; simpl in Hh; [|discriminate].
    injection Hh as <-. apply nth_error_In in Hb.
    destruct (buttons_connect _ _ _ _ Hb) as (text & c0 & -> & _).
    rewrite run_connect. cbn [connectionState calls].
    intros [= <-]. now exists (calls wd).
  - destruct (nth_error _ i) as [d|] eqn:Hd; simpl in Hh; [|discriminate].
    injection Hh as <-. apply nth_error_In in Hd.
    rewrite (proj1 (modals_handlers _ _ _ _ Hd)), run_cancelHandler.
    discriminate.
  - destruct (nth_error _ i) as [d|] eqn:Hd; [|discriminate].
    apply nth_error_In in Hd.
    destruct (proj2 (modals_handlers _ _ _ _ Hd) h Hh) as (ty & c0 & _ & E & ->).
    rewrite (run_retryHandler ty c0 wd E). cbn [connectionState calls].
    intros [= <-]. now exists (calls wd).
  - assert (Eh : h = errorEffect (Some e)) by congruence.
    rewrite Eh, run_errorEffect. cbn [connectionState calls].
    destruct (connectionState wd) as [|ty0 c0]; [discriminate|].
    destruct (fail_result_is_failure ty0 c0 e (world wd)) as (ty' & F & ->).
    intros [= -> _]. discriminate.
  - injection Hh as <-. exact (J c).
  - assert (Eh : h = activeEffect b) by congruence.
    rewrite Eh, run_activeEffect. cbn [connectionState].
    destruct b, (connectionState wd); discriminate.
  - injection Hh as <-. exact (J c).
Qed.

(** X16. While a mounted widget shows the confirmation dialog, the request
    the wallet library last received is the one shown: whenever the state is
    activating [c], the most recent call to the library is [activate c]. *)
Theorem activating_follows_activate_call
    (window : Window) (evs : list Event) (wd : Widget) (c : AbstractConnector) :
  play window evs mounted = Some wd ->
  connectionState wd = WithConnector activating c ->
  exists earlier : list Web3Call, calls wd = earlier ++ [activateCall c].
Proof.
  assert (G : forall evs wd0 wd1,
             (forall c, connectionState wd0 = WithConnector activating c ->
                exists earlier, calls wd0 = earlier ++ [activateCall c]) ->
             play window evs wd0 = Some wd1 ->
             forall c, connectionState wd1 = WithConnector activating c ->
               exists earlier, calls wd1 = earlier ++ [activateCall c]).
  { clear. induction evs as [|ev rest IH]; intros wd0 wd1 J; simpl.
    - now intros [= <-].
    - destruct (react window ev wd0) as [wd'|] eqn:Hr; [|discriminate].
      apply IH. exact (react_keeps_last_call _ _ _ _ J Hr). }
  intros Hp. apply (G evs mounted wd); [|exact Hp].
  intros c0. discriminate.
Qed.

Lemma activating_follows_activate_call_witness :
  play (mkWindow None)
       [TriedChanged true; ClickButton 0;
        ErrorChanged (Some (JS.mkError "Request already pending"));
        ClickRetry 0]
       mounted
  = Some (mkWidget true (WithConnector activating injectedMetaMaskProvider)
            initial_world
            [activateCall injectedMetaMaskProvider; deactivateCall;
             activateCall injectedMetaMaskProvider]) /\
  exists earlier : list Web3Call,
    [activateCall injectedMetaMaskProvider; deactivateCall;
     activateCall injectedMetaMaskProvider]
    = earlier ++ [activateCall injectedMetaMaskProvider].
Proof.
  split; [reflexivity|].
  exact (activating_follows_activate_call (mkWindow None)
           [TriedChanged true; ClickButton 0;
            ErrorChanged (Some (JS.mkError "Request already pending"));
            ClickRetry 0]
           _ injectedMetaMaskProvider eq_refl eq_refl).
Defined.

(** X17. The [active] flag of the library decides what is on the screen,
    whatever the state was: once the authorized connection was tried, after
    [active] turned true the wrapped content is rendered, and after it
    turned false the connect buttons are rendered with no dialog, the state
    being [Inactive].  Neither calls the library nor prints. *)
Theorem active_flag_decides_screen (window : Window) (wd : Widget) (b : bool) :
  triedAuthorizedConnection wd = true ->
  exists wd' : Widget,
    react window (ActiveChanged b) wd = Some wd' /\
    calls wd' = calls wd /\ world wd' = world wd /\
    (b = true -> render window wd' = Children) /\
    (b = false ->
     connectionState wd' = Inactive /\
     modals_of (render window wd') = [] /\
     buttons_of (render window wd') <> []).
Proof.
  intros Ht. unfold react. cbn [handler_of]. rewrite run_activeEffect.
  eexists. split; [reflexivity|]. unfold render.
  cbn [calls world triedAuthorizedConnection connectionState]. rewrite Ht.
  split; [reflexivity|]. split; [reflexivity|]. split; intros ->.
  - destruct (connectionState wd); reflexivity.
  - change (reduce (connectionState wd) (plain deactivate) (world wd))
      with Inactive.
    split; [reflexivity|]. split; [reflexivity|].
    unfold WalletConnector. simpl. destruct (_ || _); discriminate.
Qed.

Lemma active_flag_decides_screen_witness :
  triedAuthorizedConnection
    (mkWidget true (WithConnector failed injectedTallyProvider)
              initial_world []) = true /\
  exists wd' : Widget,
    react (mkWindow None) (ActiveChanged true)
          (mkWidget true (WithConnector failed injectedTallyProvider)
                    initial_world []) = Some wd' /\
    calls wd' = [] /\ world wd' = initial_world /\
    (true = true -> render (mkWindow None) wd' = Children) /\
    (true = false ->
     connectionState wd' = Inactive /\
     modals_of (render (mkWindow None) wd') = [] /\
     buttons_of (render (mkWindow None) wd') <> []).
Proof.
  split; [reflexivity|].
  exact (active_flag_decides_screen (mkWindow None)
           (mkWidget true (WithConnector failed injectedTallyProvider)
                     initial_world [])
           true eq_refl).
Defined.

(** X18. An error during an attempt followed by a click on retry attempts
    the same connector again: from any state with connector [c], after
    [error] is set the widget calls [deactivate] and shows a dialog with a
    retry button, and the click leaves the state activating [c] with
    [activate c] the last call.  Nothing is printed. *)
Theorem error_then_retry_same_connector
    (window : Window) (wd : Widget) (ty : ConnectedType)
    (c : AbstractConnector) (e : JS.Error) :
  triedAuthorizedConnection wd = true ->
  connectionState wd = WithConnector ty c ->
  play window [ErrorChanged (Some e); ClickRetry 0] wd
  = Some (mkWidget true (WithConnector activating c) (world wd)
            (calls wd ++ [deactivateCall; activateCall c])).
Proof.
  intros Ht Hs. destruct wd as [t s w cs]. simpl in Ht, Hs. subst t s.
  cbn [world calls].
  destruct (fail_result_is_failure ty c e w) as (ty' & F & E).
  assert (R : react window (ErrorChanged (Some e))
                    (mkWidget true (WithConnector ty c) w cs)
              = Some (mkWidget true (WithConnector ty' c) w
                               (cs ++ [deactivateCall]))).
  { unfold react. cbn [handler_of]. rewrite run_errorEffect.
    cbn [triedAuthorizedConnection connectionState world calls].
    now rewrite E. }
  unfold play. rewrite R. unfold react, render.
  cbn [triedAuthorizedConnection connectionState].
  destruct ty'; try discriminate; cbn;
    rewrite <- app_assoc; reflexivity.
Qed.

Lemma error_then_retry_same_connector_witness :
  triedAuthorizedConnection
    (mkWidget true (WithConnector activating injectedTallyProvider)
              initial_world [activateCall injectedTallyProvider]) = true /\
  WithConnector activating injectedTallyProvider
  = WithConnector activating injectedTallyProvider /\
  play (mkWindow None)
       [ErrorChanged (Some (JS.mkError "User rejected")); ClickRetry 0]
       (mkWidget true (WithConnector activating injectedTallyProvider)
                 initial_world [activateCall injectedTallyProvider])
  = Some (mkWidget true (WithConnector activating injectedTallyProvider)
            initial_world
            ([activateCall injectedTallyProvider]
             ++ [deactivateCall; activateCall injectedTallyProvider])).
Proof.
  split; [reflexivity|]. split; [reflexivity|].
  exact (error_then_retry_same_connector (mkWindow None)
           (mkWidget true (WithConnector activating injectedTallyProvider)
                     initial_world [activateCall injectedTallyProvider])
           activating injectedTallyProvider (JS.mkError "User rejected")
           eq_refl eq_refl).
Defined.

(** X19. Cancelling does not stop the library, and a late [active] after it
    is taken for a MetaMask connection: from activating [c], a click on
    cancel followed by [active] turning true leaves the state active with
    [injectedMetaMaskProvider], whichever connector [c] was, and no
    [deactivate] call was made in between. *)
Theorem cancel_then_late_active_records_MetaMask
    (window : Window) (wd : Widget) (c : AbstractConnector) :
  triedAuthorizedConnection wd = true ->
  connectionState wd = WithConnector activating c ->
  play window [ClickCancel 0; ActiveChanged true] wd
  = Some (mkWidget true (WithConnector active injectedMetaMaskProvider)
            (world wd) (calls wd)).
Proof.
  intros Ht Hs. destruct wd as [t s w cs]. simpl in Ht, Hs. subst t s.
  reflexivity.
Qed.

Lemma cancel_then_late_active_records_MetaMask_witness :
  triedAuthorizedConnection
    (mkWidget true (WithConnector activating injectedTallyProvider)
              initial_world [activateCall injectedTallyProvider]) = true /\
  WithConnector activating injectedTallyProvider
  = WithConnector activating injectedTallyProvider /\
  play (mkWindow (Some (mkEthereum None (Some true))))
       [ClickCancel 0; ActiveChanged true]
       (mkWidget true (WithConnector activating injectedTallyProvider)
                 initial_world [activateCall injectedTallyProvider])
  = Some (mkWidget true (WithConnector active injectedMetaMaskProvider)
            initial_world [activateCall injectedTallyProvider]).
Proof.
  split; [reflexivity|]. split; [reflexivity|].
  exact (cancel_then_late_active_records_MetaMask
           (mkWindow (Some (mkEthereum None (Some true))))
           (mkWidget true (WithConnector activating injectedTallyProvider)
                     initial_world [activateCall injectedTallyProvider])
           injectedTallyProvider eq_refl eq_refl).
Defined.
